(** * email_spoofing_check.py: SPF / DMARC / DKIM exposure check

    A shallow embedding of [email_spoofing_check.py] and the properties of
    its resolver wrapper, its three analyzers, its risk classifier and its
    command-line entry point.

    Text.  A Python [str] is modelled as a [string] whose characters are
    code points below 256 (Latin-1); on that range [lower] and [strip] are
    exactly [str.lower] and [str.strip].  A Python [bytes] is a [string] of
    octets.  The program's own literals with accented letters are written
    through [latin1], which turns the two-octet UTF-8 form of this file
    into one code point. *)

From Stdlib Require Import Strings.String Strings.Ascii Lists.List Bool.Bool
  Arith.PeanoNat Arith.Arith NArith.NArith micromega.Lia.
Import ListNotations.
Open Scope list_scope.
Open Scope string_scope.

(** ** Text *)

Definition str := string.
Definition bytes := string.

Fixpoint latin1 (s : string) : str :=
  match s with
  | EmptyString => EmptyString
  | String c t =>
      match t with
      | EmptyString => String c EmptyString
      | String d t' =>
          if Nat.eqb (nat_of_ascii c) 195
          then String (ascii_of_nat (nat_of_ascii d + 64)) (latin1 t')
          else if Nat.eqb (nat_of_ascii c) 194
          then String d (latin1 t')
          else String c (latin1 t)
      end
  end.

(** Code points below 256 that [str.lower] changes: A-Z and the accented
    capitals U+00C0-U+00DE without the multiplication sign U+00D7. *)
Definition has_lowercase (c : ascii) : bool :=
  let n := nat_of_ascii c in
  (((65 <=? n) && (n <=? 90))
   || ((192 <=? n) && (n <=? 222) && negb (n =? 215)))%nat.

Definition lower_char (c : ascii) : ascii :=
  if has_lowercase c then ascii_of_nat (nat_of_ascii c + 32) else c.

(** [s.lower()] *)
Fixpoint lower (s : str) : str :=
  match s with
  | EmptyString => EmptyString
  | String c s' => String (lower_char c) (lower s')
  end.

(** Code points below 256 for which [str.isspace] holds. *)
Definition isspace (c : ascii) : bool :=
  let n := nat_of_ascii c in
  (((9 <=? n) && (n <=? 13)) || ((28 <=? n) && (n <=? 32))
   || (n =? 133) || (n =? 160))%nat.

Fixpoint lstrip (s : str) : str :=
  match s with
  | EmptyString => EmptyString
  | String c s' => if isspace c then lstrip s' else s
  end.

Fixpoint rstrip (s : str) : str :=
  match s with
  | EmptyString => EmptyString
  | String c s' =>
      match rstrip s' with
      | EmptyString => if isspace c then EmptyString else String c EmptyString
      | t => String c t
      end
  end.

(** [s.strip()] *)
Definition strip (s : str) : str := rstrip (lstrip s).

(** [s.startswith(p)] *)
Definition startswith (s p : str) : bool := prefix p s.

(** [sub in s] *)
Fixpoint contains (sub s : str) : bool :=
  prefix sub s
  || match s with
     | EmptyString => false
     | String _ s' => contains sub s'
     end.

(** [sep.join(l)] *)
Definition join (sep : str) (l : list str) : str := String.concat sep l.

(** [b"".join(l)] *)
Definition join_bytes (l : list bytes) : bytes := String.concat "" l.

Definition nl : str := String (ascii_of_nat 10) EmptyString.

(** What an f-string prints for a [bool] and for an optional string. *)
Definition format_bool (b : bool) : str := if b then "True" else "False".

Definition format_opt (o : option str) : str :=
  match o with
  | None => "None"
  | Some s => s
  end.

(** ** Constants and literals *)

Definition COMMON_DKIM_SELECTORS : list str :=
  ["default"; "selector1"; "selector2"; "google"; "mail"; "smtp"].

Definition Alto : str := "Alto".
Definition Medio : str := Eval cbv in latin1 "Médio".
Definition Baixo : str := "Baixo".

(** ** Results of the analyzers

    The dictionaries the analyzers return, as records; the key [exists]
    is spelled [exists_]. *)

Record assessment := mk_assessment {
  exists_ : bool;
  policy : option str;
  risk : str;
  note : str
}.

Record dkim_assessment := mk_dkim {
  dkim_exists : bool;
  selectors : list str;
  dkim_note : str
}.

(** ** The resolver library

    [dns.resolver.resolve(name, "TXT", lifetime=TIMEOUT)] either answers
    with a sequence of rdata or raises.  The handlers of [query_txt] tell
    four kinds of exception apart; of any other exception only its text
    is used.  The exceptions are those below [Exception]; an interrupt of
    the process is not an outcome of a lookup. *)

Inductive strings_field :=
| OneBytes (b : bytes)
| TupleBytes (bs : list bytes).

Record rdata := mk_rdata { strings : strings_field }.

Inductive py_exception :=
| NoAnswer
| NXDOMAIN
| Timeout
| OtherException (text : str).

Inductive outcome (A : Type) :=
| Returned (a : A)
| Raised (e : py_exception).
Arguments Returned {A} a.
Arguments Raised {A} e.

Definition resolver := str -> outcome (list rdata).

(** Computations that query the resolver: the names looked up are logged
    in call order. *)
Definition DNS (A : Type) : Type := resolver -> list str -> A * list str.

Definition ret {A} (a : A) : DNS A := fun _ log => (a, log).

Definition bind {A B} (m : DNS A) (k : A -> DNS B) : DNS B :=
  fun rv log => let (a, log') := m rv log in k a rv log'.

Notation "x <- m ;; k" := (bind m (fun x => k))
  (at level 61, m at next level, right associativity).

Definition resolve (name : str) : DNS (outcome (list rdata)) :=
  fun rv log => (rv name, (log ++ [name])%list).

Definition run {A} (m : DNS A) (rv : resolver) : A * list str := m rv [].

Section Program.

(** [bytes.decode()]: the text, or the exception it raises. *)
Variable decode : bytes -> outcome str.

(** The element expression of the comprehension in [query_txt]. *)
Definition decode_rdata (r : rdata) : outcome str :=
  match match strings r with
        | OneBytes b => decode b
        | TupleBytes bs => decode (join_bytes bs)
        end with
  | Returned t => Returned (join "" (map (fun c => String c EmptyString)
                                          (list_ascii_of_string t)))
  | Raised e => Raised e
  end.

(** The comprehension itself: left to right, the first exception ends it. *)
Fixpoint decode_answers (answers : list rdata) : outcome (list str) :=
  match answers with
  | [] => Returned []
  | r :: rest =>
      match decode_rdata r with
      | Raised e => Raised e
      | Returned t =>
          match decode_answers rest with
          | Raised e => Raised e
          | Returned ts => Returned (t :: ts)
          end
      end
  end.

Definition query_txt (name : str) : DNS (list str) :=
  answers <- resolve name ;;
  ret (match match answers with
             | Returned rs => decode_answers rs
             | Raised e => Raised e
             end with
       | Returned l => l
       | Raised NoAnswer | Raised NXDOMAIN => []
       | Raised Timeout => ["TIMEOUT"]
       | Raised (OtherException text) => ["ERROR: " ++ text]
       end).

Definition analyze_spf (txt_records : list str) : assessment :=
  let spf_records :=
    filter (fun r => startswith (lower r) "v=spf1") txt_records in
  match spf_records with
  | [] => mk_assessment false None Alto "SPF ausente"
  | r0 :: _ =>
      let spf := lower r0 in
      let '(policy, risk) :=
        if contains "-all" spf then ("-all", Baixo)
        else if contains "~all" spf then ("~all", Medio)
        else if contains "+all" spf || contains " all" spf
             then ("+all", Alto)
        else ("sem all", Medio) in
      mk_assessment true (Some policy) risk "SPF presente"
  end.

Definition analyze_dmarc (domain : str) : DNS assessment :=
  records <- query_txt ("_dmarc." ++ domain) ;;
  let dmarc_records :=
    filter (fun r => startswith (lower r) "v=dmarc1") records in
  ret (match dmarc_records with
       | [] => mk_assessment false None Alto "DMARC ausente"
       | r0 :: _ =>
           let dmarc := lower r0 in
           let '(policy, risk) :=
             if contains "p=reject" dmarc then ("reject", Baixo)
             else if contains "p=quarantine" dmarc then ("quarantine", Medio)
             else ("none", Alto) in
           mk_assessment true (Some policy) risk "DMARC presente"
       end).

(** The inner loop of [detect_dkim] over the records of one selector. *)
Fixpoint dkim_records (selector : str) (records : list str)
    (found : list str) : list str :=
  match records with
  | [] => found
  | r :: rest =>
      dkim_records selector rest
        (if startswith (lower r) "v=dkim1"
         then (found ++ [selector])%list else found)
  end.

(** The outer loop of [detect_dkim] over the selectors. *)
Fixpoint dkim_selectors (todo : list str) (domain : str)
    (found : list str) : DNS (list str) :=
  match todo with
  | [] => ret found
  | selector :: rest =>
      let name := selector ++ "._domainkey." ++ domain in
      records <- query_txt name ;;
      dkim_selectors rest domain (dkim_records selector records found)
  end.

Definition DKIM_identificado : str := "DKIM identificado (parcial)".
Definition DKIM_nao_identificado : str :=
  Eval cbv in latin1 "DKIM não identificado (selectors comuns)".

Definition detect_dkim (domain : str) : DNS dkim_assessment :=
  found <- dkim_selectors COMMON_DKIM_SELECTORS domain [] ;;
  ret (match found with
       | _ :: _ => mk_dkim true found DKIM_identificado
       | [] => mk_dkim false [] DKIM_nao_identificado
       end).

Definition classify_overall (spf dmarc : assessment) : str :=
  if negb (exists_ spf) && negb (exists_ dmarc) then Alto
  else if (risk spf =? Alto) || (risk dmarc =? Alto) then Alto
  else if (risk spf =? Medio) || (risk dmarc =? Medio) then Medio
  else Baixo.

(** The report, one element for each [print]. *)
Definition report_lines (domain : str) (spf_result dmarc_result : assessment)
    (dkim_result : dkim_assessment) (overall_risk : str) : list str :=
  [ nl ++ latin1 "[+] Analisando domínio: " ++ domain ++ nl;
    "=== RESULTADO ===" ++ nl;
    "[SPF]";
    "  Existe      : " ++ format_bool (exists_ spf_result);
    latin1 "  Política    : " ++ format_opt (policy spf_result);
    "  Risco       : " ++ risk spf_result;
    latin1 "  Observação  : " ++ note spf_result ++ nl;
    "[DMARC]";
    "  Existe      : " ++ format_bool (exists_ dmarc_result);
    latin1 "  Política    : " ++ format_opt (policy dmarc_result);
    "  Risco       : " ++ risk dmarc_result;
    latin1 "  Observação  : " ++ note dmarc_result ++ nl;
    "[DKIM]";
    "  Existe      : " ++ format_bool (dkim_exists dkim_result);
    "  Selectors   : " ++ match selectors dkim_result with
                          | _ :: _ => join ", " (selectors dkim_result)
                          | [] => "Nenhum"
                          end;
    latin1 "  Observação  : " ++ dkim_note dkim_result ++ nl;
    latin1 "[CLASSIFICAÇÃO FINAL]";
    "  Risco Geral : " ++ overall_risk ++ nl;
    if negb (overall_risk =? Baixo)
    then latin1 "[!] Possível cenário de Email Spoofing identificado."
    else latin1 "[+] Configuração adequada contra spoofing." ].

(** [main], with [sys.argv = argv0 :: args]: what is printed and the exit
    status of the process. *)
Definition main (argv0 : str) (args : list str) : DNS (list str * nat) :=
  match args with
  | [arg] =>
      let domain := lower (strip arg) in
      txt_records <- query_txt domain ;;
      let spf_result := analyze_spf txt_records in
      dmarc_result <- analyze_dmarc domain ;;
      dkim_result <- detect_dkim domain ;;
      let overall_risk := classify_overall spf_result dmarc_result in
      ret (report_lines domain spf_result dmarc_result dkim_result
             overall_risk, 0)
  | _ => ret (["Uso: " ++ argv0 ++ " dominio.com"], 1)
  end.

End Program.

(** [bytes.decode()] on ASCII octets, where UTF-8 decoding is the
    identity; any other octet is reported as a decoding error.  The
    concrete records below are ASCII. *)
Fixpoint all_ascii (b : bytes) : bool :=
  match b with
  | EmptyString => true
  | String c b' => (nat_of_ascii c <? 128)%nat && all_ascii b'
  end.

Definition decode_ascii (b : bytes) : outcome str :=
  if all_ascii b then Returned b
  else Raised (OtherException "'utf-8' codec can't decode byte").

(** A zone given as a table from names to the TXT strings published there;
    names not in the table do not exist. *)
Fixpoint zone (table : list (str * list bytes)) : resolver :=
  fun name =>
    match table with
    | [] => Raised NXDOMAIN
    | (n, txts) :: rest =>
        if n =? name
        then Returned (map (fun t => mk_rdata (TupleBytes [t])) txts)
        else zone rest name
    end.

(** ** Notions used in the statements *)

(** The value [query_txt name] returns against a resolver. *)
Definition records_at (decode : bytes -> outcome str) (rv : resolver)
    (name : str) : list str :=
  fst (run (query_txt decode name) rv).

Definition is_spf (r : str) : bool := startswith (lower r) "v=spf1".
Definition is_dmarc (r : str) : bool := startswith (lower r) "v=dmarc1".
Definition is_dkim (r : str) : bool := startswith (lower r) "v=dkim1".

(** [r] is the first element of [l] that satisfies [p]. *)
Definition first_match (p : str -> bool) (l : list str) (r : str) : Prop :=
  exists before after,
    l = (before ++ r :: after)%list
    /\ Forall (fun x => p x = false) before
    /\ p r = true.

Definition no_match (p : str -> bool) (l : list str) : Prop :=
  Forall (fun x => p x = false) l.

(** The name probed for a selector, and the number of records found there
    whose lowercase form starts with "v=dkim1". *)
Definition dkim_name (domain selector : str) : str :=
  selector ++ "._domainkey." ++ domain.

Definition dkim_hits (decode : bytes -> outcome str) (rv : resolver)
    (domain selector : str) : nat :=
  length (filter is_dkim (records_at decode rv (dkim_name domain selector))).

Definition dmarc_result (decode : bytes -> outcome str) (rv : resolver)
    (domain : str) : assessment :=
  fst (run (analyze_dmarc decode domain) rv).

Definition dkim_result (decode : bytes -> outcome str) (rv : resolver)
    (domain : str) : dkim_assessment :=
  fst (run (detect_dkim decode domain) rv).

(** The last three printed elements: the final heading, the overall
    risk and the closing message. *)
Definition verdict_lines (out : list str) : list str := skipn 16 out.

(** The order Baixo < Medio < Alto and the larger of two levels. *)
Definition risk_rank (r : str) : nat :=
  if r =? Alto then 2 else if r =? Medio then 1 else 0.

Definition risk_max (a b : str) : str :=
  if (risk_rank a <? risk_rank b)%nat then b else a.

(** [s.split(" ")] and the tokens that are an [all] mechanism of SPF,
    bare or with a qualifier. *)
Fixpoint split_spaces (s : str) : list str :=
  match s with
  | EmptyString => [EmptyString]
  | String c s' =>
      if Ascii.eqb c " " then EmptyString :: split_spaces s'
      else match split_spaces s' with
           | w :: ws => String c w :: ws
           | [] => [String c EmptyString]
           end
  end.

Definition all_mechanisms : list str := ["all"; "+all"; "-all"; "~all"; "?all"].

Definition has_all_mechanism (r : str) : bool :=
  existsb (fun t => existsb (String.eqb t) all_mechanisms)
    (split_spaces (lower r)).


Definition same_letter (a b : ascii) : bool :=
  Ascii.eqb a b
  || (has_lowercase a && Ascii.eqb (lower_char a) b)
  || (has_lowercase b && Ascii.eqb (lower_char b) a).

Fixpoint same_text (s t : str) : bool :=
  match s, t with
  | EmptyString, EmptyString => true
  | String a s', String b t' => same_letter a b && same_text s' t'
  | _, _ => false
  end.


(** The body of the [try] in [query_txt name] raises: the lookup does, or
    the decoding of its answer. *)
Definition lookup_fails (decode : bytes -> outcome str) (rv : resolver)
    (name : str) : Prop :=
  exists e,
    match rv name with
    | Returned rs => decode_answers decode rs
    | Raised e' => Raised e'
    end = Raised e.

(** Zones for the concrete cases. *)
Definition zone_strict : resolver :=
  zone [("example.com", ["google-site-verification=abc"; "v=spf1 mx -all"]);
        ("_dmarc.example.com", ["v=DMARC1; p=reject; rua=mailto:d@example.com"]);
        ("selector1._domainkey.example.com", ["v=DKIM1; k=rsa; p=MIGf"])].

Definition zone_two_keys : resolver :=
  zone [("default._domainkey.example.com",
         ["v=DKIM1; k=rsa; p=MIGf"; "v=DKIM1; k=ed25519; p=11qY"])].

Definition all_timeout : resolver := fun _ => Raised Timeout.

Definition no_records : resolver := fun _ => Raised NXDOMAIN.

(** [zone_strict] with every DKIM key withdrawn and other keys added. *)
Definition zone_strict_other_keys : resolver :=
  zone [("example.com", ["google-site-verification=abc"; "v=spf1 mx -all"]);
        ("_dmarc.example.com", ["v=DMARC1; p=reject; rua=mailto:d@example.com"]);
        ("mail._domainkey.example.com", ["v=DKIM1; k=rsa; p=MIIB"]);
        ("smtp._domainkey.example.com", ["v=DKIM1; k=rsa; p=MIIC"])].

Definition spf_absent : assessment :=
  mk_assessment false None Alto "SPF ausente".
Definition dmarc_absent : assessment :=
  mk_assessment false None Alto "DMARC ausente".
Definition dkim_absent : dkim_assessment :=
  mk_dkim false [] DKIM_nao_identificado.

(** The two closing messages of the report. *)
Definition msg_adequate : str :=
  Eval cbv in latin1 "[+] Configuração adequada contra spoofing.".
Definition msg_warning : str :=
  Eval cbv in latin1 "[!] Possível cenário de Email Spoofing identificado.".

(** The octets a record is decoded from. *)
Definition record_octets (r : rdata) : bytes :=
  match strings r with
  | OneBytes b => b
  | TupleBytes bs => String.concat "" bs
  end.

(** More zones: a DMARC record with a subdomain policy only, and an
    answer in which one record is not valid UTF-8. *)
Definition zone_sp_reject : resolver :=
  zone [("example.com", ["v=spf1 -all"]);
        ("_dmarc.example.com", ["v=DMARC1; p=none; sp=reject"])].

Definition bad_octets : bytes := String (ascii_of_nat 255) "binary".

Definition zone_bad_octets : resolver :=
  zone [("example.com", ["v=spf1 -all"; bad_octets])].

Definition split_record : resolver :=
  fun name =>
    if name =? "example.com"
    then Returned [mk_rdata (TupleBytes ["v=spf1 include:_spf.exam";
                                         "ple.com "; "-all"]);
                   mk_rdata (OneBytes "hello")]
    else Raised NXDOMAIN.

Definition record_TIMEOUT : resolver :=
  fun _ => Returned [mk_rdata (TupleBytes ["TIME"; "OUT"])].

(** ** Text beyond code point 255

    A Python [str] holds any code point, and [str.lower] is not a
    character-by-character map there: a capital sigma becomes the final
    small sigma when a cased letter stands before it and none after it,
    case-ignorable characters aside.  [ustr] is text as the sequence of
    its code points; [ulower] and [ustrip] are [str.lower] and
    [str.strip] on text over the code points below 256 and the 24 Greek
    letters in both cases (U+0391-U+03A9, U+03B1-U+03C9).  [wide] reads a
    [str] of this file as such text. *)





















(** ** Lists and the query monad *)

Lemma filter_none (p : str -> bool) (l : list str) :
  no_match p l -> filter p l = [].
Proof.
  unfold no_match. induction 1 as [|x l Hx _ IH]; simpl.
  - reflexivity.
  - now rewrite Hx.
Qed.

Lemma filter_first (p : str -> bool) (l : list str) (r : str) :
  first_match p l r -> exists rest, filter p l = r :: rest.
Proof.
  intros (before & after & -> & Hb & Hr).
  rewrite filter_app, (filter_none p before Hb). simpl.
  rewrite Hr. now exists (filter p after).
Qed.

Lemma match_or_not (p : str -> bool) (l : list str) :
  no_match p l \/ exists r, first_match p l r.
Proof.
  induction l as [|x l IH].
  - left. constructor.
  - destruct (p x) eqn:Hx.
    + right. exists x, [], l. repeat split; auto.
    + destruct IH as [IH | (r & before & after & -> & Hb & Hr)].
      * left. now constructor.
      * right. exists r, (x :: before), after. repeat split; auto.
Qed.

Lemma query_txt_eq decode name rv log :
  query_txt decode name rv log
  = (records_at decode rv name, (log ++ [name])%list).
Proof. reflexivity. Qed.

(** ** SPF *)

(** C1. [analyze_spf] on any sequence of TXT strings: with no record
    whose lowercase form starts with "v=spf1" the result is the absent
    assessment (risk Alto); otherwise the first such record, in the order
    given, is classified on its lowercase form by the first of "-all"
    (Baixo), "~all" (Medio), "+all" or " all" (policy "+all", Alto) that
    occurs in it, and as "sem all" (Medio) when none does.  Every input
    falls under one of the two cases. *)
Theorem analyze_spf_mapping (txt_records : list str) :
  (no_match is_spf txt_records ->
     analyze_spf txt_records = mk_assessment false None Alto "SPF ausente")
  /\ (forall r, first_match is_spf txt_records r ->
        let spf := lower r in
        (contains "-all" spf = true ->
           analyze_spf txt_records
           = mk_assessment true (Some "-all") Baixo "SPF presente")
        /\ (contains "-all" spf = false -> contains "~all" spf = true ->
             analyze_spf txt_records
             = mk_assessment true (Some "~all") Medio "SPF presente")
        /\ (contains "-all" spf = false -> contains "~all" spf = false ->
             contains "+all" spf = true \/ contains " all" spf = true ->
             analyze_spf txt_records
             = mk_assessment true (Some "+all") Alto "SPF presente")
        /\ (contains "-all" spf = false -> contains "~all" spf = false ->
             contains "+all" spf = false -> contains " all" spf = false ->
             analyze_spf txt_records
             = mk_assessment true (Some "sem all") Medio "SPF presente"))
  /\ (no_match is_spf txt_records
      \/ exists r, first_match is_spf txt_records r).
Proof.
  split; [|split].
  - intros H. unfold analyze_spf.
    change (fun r => startswith (lower r) "v=spf1") with is_spf.
    now rewrite (filter_none _ _ H).
  - intros r H spf. destruct (filter_first _ _ _ H) as [rest E].
    unfold analyze_spf.
    change (fun r => startswith (lower r) "v=spf1") with is_spf.
    rewrite E. fold spf.
    repeat split.
    + intros ->. reflexivity.
    + intros -> ->. reflexivity.
    + intros -> -> [-> | ->]; [reflexivity|].
      now rewrite orb_true_r.
    + intros -> -> -> ->. reflexivity.
  - apply match_or_not.
Qed.

Lemma analyze_spf_mapping_witness :
  analyze_spf ["google-site-verification=abc"; "V=SPF1 include:x ~ALL";
               "v=spf1 -all"]
  = mk_assessment true (Some "~all") Medio "SPF presente"
  /\ analyze_spf ["TIMEOUT"] = mk_assessment false None Alto "SPF ausente".
Proof.
  split.
  - destruct (analyze_spf_mapping
                ["google-site-verification=abc"; "V=SPF1 include:x ~ALL";
                 "v=spf1 -all"]) as [_ [H _]].
    refine (proj1 (proj2 (H "V=SPF1 include:x ~ALL" _)) _ _);
      [|reflexivity|reflexivity].
    exists ["google-site-verification=abc"], ["v=spf1 -all"].
    repeat split. repeat constructor.
  - apply (proj1 (analyze_spf_mapping ["TIMEOUT"])).
    repeat constructor.
Defined.

(** ** DMARC *)

(** C2. [analyze_dmarc domain] looks up exactly "_dmarc.<domain>"; with
    no returned record whose lowercase form starts with "v=dmarc1" the
    result is the absent assessment (risk Alto); otherwise the first such
    record is classified on its lowercase form: "p=reject" gives Baixo,
    else "p=quarantine" gives Medio, else policy "none" and Alto. *)
Theorem analyze_dmarc_mapping (decode : bytes -> outcome str)
    (domain : str) (rv : resolver) :
  let records := records_at decode rv ("_dmarc." ++ domain) in
  let result := fst (run (analyze_dmarc decode domain) rv) in
  snd (run (analyze_dmarc decode domain) rv) = ["_dmarc." ++ domain]
  /\ (no_match is_dmarc records ->
      result = mk_assessment false None Alto "DMARC ausente")
  /\ (forall r, first_match is_dmarc records r ->
        let dmarc := lower r in
        (contains "p=reject" dmarc = true ->
           result = mk_assessment true (Some "reject") Baixo "DMARC presente")
        /\ (contains "p=reject" dmarc = false ->
             contains "p=quarantine" dmarc = true ->
             result
             = mk_assessment true (Some "quarantine") Medio "DMARC presente")
        /\ (contains "p=reject" dmarc = false ->
             contains "p=quarantine" dmarc = false ->
             result = mk_assessment true (Some "none") Alto "DMARC presente"))
  /\ (no_match is_dmarc records
      \/ exists r, first_match is_dmarc records r).
Proof.
  intros records result.
  assert (E : run (analyze_dmarc decode domain) rv
              = (match filter is_dmarc records with
                 | [] => mk_assessment false None Alto "DMARC ausente"
                 | r0 :: _ =>
                     let dmarc := lower r0 in
                     let '(policy, risk) :=
                       if contains "p=reject" dmarc then ("reject", Baixo)
                       else if contains "p=quarantine" dmarc
                            then ("quarantine", Medio)
                       else ("none", Alto) in
                     mk_assessment true (Some policy) risk "DMARC presente"
                 end, ["_dmarc." ++ domain])) by reflexivity.
  subst result. rewrite E. simpl fst. simpl snd.
  split; [reflexivity|]. split; [|split].
  - intros H. now rewrite (filter_none _ _ H).
  - intros r H dmarc. destruct (filter_first _ _ _ H) as [rest ->].
    fold dmarc. repeat split.
    + intros ->. reflexivity.
    + intros -> ->. reflexivity.
    + intros -> ->. reflexivity.
  - apply match_or_not.
Qed.

Lemma analyze_dmarc_mapping_witness :
  fst (run (analyze_dmarc decode_ascii "example.com") zone_strict)
  = mk_assessment true (Some "reject") Baixo "DMARC presente"
  /\ fst (run (analyze_dmarc decode_ascii "example.com") all_timeout)
     = mk_assessment false None Alto "DMARC ausente".
Proof.
  split.
  - destruct (analyze_dmarc_mapping decode_ascii "example.com" zone_strict)
      as [_ [_ [H _]]].
    refine (proj1 (H "v=DMARC1; p=reject; rua=mailto:d@example.com" _) _);
      [|reflexivity].
    exists [], []. repeat split. constructor.
  - destruct (analyze_dmarc_mapping decode_ascii "example.com" all_timeout)
      as [_ [H _]].
    apply H. repeat constructor.
Defined.

(** ** DKIM *)

Lemma dkim_records_eq selector records found :
  dkim_records selector records found
  = (found ++ repeat selector (length (filter is_dkim records)))%list.
Proof.
  revert found. induction records as [|r rest IH]; intros found; simpl.
  - now rewrite app_nil_r.
  - rewrite IH. unfold is_dkim at 2.
    destruct (startswith (lower r) "v=dkim1"); simpl.
    + now rewrite <- app_assoc.
    + reflexivity.
Qed.

Lemma dkim_selectors_eq decode domain rv todo :
  forall found log,
    dkim_selectors decode todo domain found rv log
    = ((found ++ flat_map (fun s => repeat s (dkim_hits decode rv domain s))
                   todo)%list,
       (log ++ map (dkim_name domain) todo)%list).
Proof.
  induction todo as [|selector rest IH]; intros found log; simpl.
  - unfold ret. now rewrite !app_nil_r.
  - unfold bind. rewrite query_txt_eq, IH, dkim_records_eq.
    unfold dkim_hits, dkim_name. now rewrite <- !app_assoc.
Qed.

Lemma detect_dkim_eq decode domain rv log :
  detect_dkim decode domain rv log
  = (dkim_result decode rv domain,
     (log ++ map (dkim_name domain) COMMON_DKIM_SELECTORS)%list).
Proof.
  unfold dkim_result, run, detect_dkim, bind.
  rewrite !dkim_selectors_eq. reflexivity.
Qed.

Lemma at_most_once (h : str -> nat) (l : list str) :
  (forall s, In s l -> h s <= 1) ->
  flat_map (fun s => repeat s (h s)) l = filter (fun s => (0 <? h s)%nat) l.
Proof.
  induction l as [|x l IH]; intros H; simpl.
  - reflexivity.
  - rewrite IH by (intros s Hs; apply H; now right).
    assert (Hx : h x <= 1) by (apply H; now left).
    destruct (h x) as [|[|n]]; simpl; [reflexivity|reflexivity|lia].
Qed.

Lemma selectors_distinct : NoDup COMMON_DKIM_SELECTORS.
Proof.
  unfold COMMON_DKIM_SELECTORS.
  repeat (constructor; [simpl; intuition discriminate|]).
  constructor.
Qed.

(** C4, as the code has it.  [detect_dkim domain] looks up exactly the six
    names "<selector>._domainkey.<domain>" for default, selector1,
    selector2, google, mail, smtp, in that order, each once; it appends a
    selector once for every returned record whose lowercase form starts
    with "v=dkim1", so the list is the selectors in probing order, each
    repeated as often as it has such records; [exists] is true exactly
    when the list is not empty.  When no selector has more than one such
    record, the list is the selectors with a match, without repetition. *)
Theorem detect_dkim_selectors (decode : bytes -> outcome str)
    (domain : str) (rv : resolver) :
  let found :=
    flat_map (fun s => repeat s (dkim_hits decode rv domain s))
      ["default"; "selector1"; "selector2"; "google"; "mail"; "smtp"] in
  run (detect_dkim decode domain) rv
  = (match found with
     | [] => mk_dkim false [] DKIM_nao_identificado
     | _ :: _ => mk_dkim true found DKIM_identificado
     end,
     map (dkim_name domain)
       ["default"; "selector1"; "selector2"; "google"; "mail"; "smtp"])
  /\ ((forall s, In s COMMON_DKIM_SELECTORS ->
                 dkim_hits decode rv domain s <= 1) ->
      found = filter (fun s => (0 <? dkim_hits decode rv domain s)%nat)
                COMMON_DKIM_SELECTORS
      /\ NoDup found).
Proof.
  intros found. split.
  - subst found. fold COMMON_DKIM_SELECTORS.
    unfold run, detect_dkim, bind. rewrite dkim_selectors_eq, !app_nil_l.
    unfold ret. now destruct (flat_map _ _).
  - intros H. subst found. fold COMMON_DKIM_SELECTORS.
    rewrite (at_most_once _ _ H). split; [reflexivity|].
    apply NoDup_filter, selectors_distinct.
Qed.

Lemma detect_dkim_selectors_witness :
  selectors (fst (run (detect_dkim decode_ascii "example.com") zone_strict))
  = ["selector1"]
  /\ NoDup (flat_map
              (fun s => repeat s (dkim_hits decode_ascii zone_strict
                                    "example.com" s))
              ["default"; "selector1"; "selector2"; "google"; "mail";
               "smtp"]).
Proof.
  destruct (detect_dkim_selectors decode_ascii "example.com" zone_strict)
    as [E H].
  split.
  - rewrite E. reflexivity.
  - apply H. intros s Hs. simpl in Hs.
    repeat (destruct Hs as [<- | Hs]; [vm_compute; lia|]).
    destruct Hs.
Defined.

(** C4, as stated, fails: a selector that publishes two DKIM records is
    listed twice. *)
Lemma detect_dkim_duplicates :
  selectors (fst (run (detect_dkim decode_ascii "example.com") zone_two_keys))
  = ["default"; "default"]
  /\ ~ NoDup (selectors
                (fst (run (detect_dkim decode_ascii "example.com")
                        zone_two_keys))).
Proof.
  split.
  - reflexivity.
  - intros H. vm_compute in H. inversion H as [|x l Hn _]; subst.
    apply Hn. now left.
Qed.

(** ** The resolver wrapper *)

(** C5, as the code has it.  [query_txt] returns a value for every
    outcome of the lookup and of the decoding, and the lookup is its only
    effect: the empty list when the answer is empty or [NoAnswer] or
    [NXDOMAIN] is raised, the list ["TIMEOUT"] on a timeout, the list
    ["ERROR: <text>"] for any other exception, raised by the lookup or
    while decoding, and the decoded records otherwise.  The timeout value
    differs from the value of every other failure and from the value of
    every answer, except an answer whose only record reads TIMEOUT. *)
Theorem query_txt_total (decode : bytes -> outcome str) (name : str)
    (rv : resolver) (log : list str) :
  exists records,
    query_txt decode name rv log = (records, (log ++ [name])%list)
    /\ (rv name = Returned [] \/ rv name = Raised NoAnswer
        \/ rv name = Raised NXDOMAIN -> records = [])
    /\ (rv name = Raised Timeout -> records = ["TIMEOUT"])
    /\ (forall text, rv name = Raised (OtherException text) ->
          records = ["ERROR: " ++ text])
    /\ (forall answers text, rv name = Returned answers ->
          decode_answers decode answers = Raised (OtherException text) ->
          records = ["ERROR: " ++ text])
    /\ (forall answers texts, rv name = Returned answers ->
          decode_answers decode answers = Returned texts ->
          records = texts)
    /\ (forall rv', rv name = Raised Timeout ->
          rv' name = Raised NoAnswer \/ rv' name = Raised NXDOMAIN
          \/ (exists text, rv' name = Raised (OtherException text)) ->
          records <> records_at decode rv' name)
    /\ (forall rv' answers texts, rv name = Raised Timeout ->
          rv' name = Returned answers ->
          decode_answers decode answers = Returned texts ->
          (records = records_at decode rv' name <-> texts = ["TIMEOUT"])).
Proof.
  exists (records_at decode rv name).
  split; [apply query_txt_eq|].
  unfold records_at, run, query_txt, bind, resolve, ret. simpl.
  split; [|split; [|split; [|split; [|split; [|split]]]]].
  - intros [-> | [-> | ->]]; reflexivity.
  - intros ->. reflexivity.
  - intros text ->. reflexivity.
  - intros answers text -> ->. reflexivity.
  - intros answers texts -> ->. reflexivity.
  - intros rv' -> [-> | [-> | [text ->]]]; discriminate.
  - intros rv' answers texts -> -> ->.
    split; intros E; now symmetry.
Qed.

Lemma query_txt_total_witness :
  run (query_txt decode_ascii "example.com") all_timeout
  = (["TIMEOUT"], ["example.com"])
  /\ run (query_txt decode_ascii "nowhere.example") zone_strict
     = ([], ["nowhere.example"]).
Proof.
  split.
  - destruct (query_txt_total decode_ascii "example.com" all_timeout [])
      as (records & E & _ & H & _).
    unfold run. rewrite E, (H eq_refl). reflexivity.
  - destruct (query_txt_total decode_ascii "nowhere.example" zone_strict [])
      as (records & E & H & _).
    unfold run. rewrite E, H; [reflexivity|].
    right. right. reflexivity.
Defined.

(** C5, as stated, fails: the value returned on a timeout is also the
    value of an answered lookup, so the caller cannot tell the two
    apart, and the whole run is the same. *)
Lemma query_txt_timeout_not_distinguishable :
  record_TIMEOUT "example.com" <> all_timeout "example.com"
  /\ run (query_txt decode_ascii "example.com") record_TIMEOUT
     = run (query_txt decode_ascii "example.com") all_timeout
  /\ run (main decode_ascii "check.py" ["example.com"]) record_TIMEOUT
     = run (main decode_ascii "check.py" ["example.com"]) all_timeout.
Proof.
  split; [discriminate|]. split; reflexivity.
Qed.

(** ** The whole run *)

Lemma analyze_dmarc_eq decode domain rv log :
  analyze_dmarc decode domain rv log
  = (dmarc_result decode rv domain,
     (log ++ [("_dmarc." ++ domain)%string])%list).
Proof. reflexivity. Qed.

Lemma main_one decode argv0 arg rv :
  let domain := lower (strip arg) in
  let spf := analyze_spf (records_at decode rv domain) in
  let dmarc := dmarc_result decode rv domain in
  run (main decode argv0 [arg]) rv
  = ((report_lines domain spf dmarc (dkim_result decode rv domain)
        (classify_overall spf dmarc), 0),
     domain :: ("_dmarc." ++ domain)
       :: map (dkim_name domain) COMMON_DKIM_SELECTORS).
Proof.
  intros domain spf dmarc. unfold run, main, bind.
  fold domain. rewrite query_txt_eq, analyze_dmarc_eq, detect_dkim_eq.
  reflexivity.
Qed.

Lemma records_at_ext decode rv1 rv2 name :
  rv1 name = rv2 name -> records_at decode rv1 name = records_at decode rv2 name.
Proof.
  intros H. unfold records_at, run, query_txt, bind, resolve, ret. simpl.
  now rewrite H.
Qed.

Lemma dmarc_result_ext decode rv1 rv2 domain :
  rv1 ("_dmarc." ++ domain) = rv2 ("_dmarc." ++ domain) ->
  dmarc_result decode rv1 domain = dmarc_result decode rv2 domain.
Proof.
  intros H.
  unfold dmarc_result, run, analyze_dmarc, query_txt, bind, resolve, ret.
  cbv beta. now rewrite H.
Qed.

Lemma length_app (a b : str) :
  String.length (a ++ b) = String.length a + String.length b.
Proof. induction a as [|c a IH]; simpl; [reflexivity | now rewrite IH]. Qed.

Lemma not_own_suffix (p s : str) : p <> "" -> s <> p ++ s.
Proof.
  intros Hp E. apply (f_equal String.length) in E. rewrite length_app in E.
  destruct p; [congruence | simpl in E; lia].
Qed.

(** A run never looks a name up twice, so an answer fixed per name is all
    a run can observe of the resolver. *)
Lemma main_lookups_distinct decode argv0 arg rv :
  NoDup (snd (run (main decode argv0 [arg]) rv)).
Proof.
  rewrite main_one. cbv zeta. simpl snd.
  set (d := lower (strip arg)).
  unfold COMMON_DKIM_SELECTORS, dkim_name. simpl map.
  assert (S : forall p, p <> "" -> d <> p ++ d) by (intros; now apply not_own_suffix).
  constructor.
  - simpl. intros [E | [E | [E | [E | [E | [E | [E | []]]]]]]];
      symmetry in E; revert E.
    + apply (S "_dmarc."); discriminate.
    + apply (S "default._domainkey."); discriminate.
    + apply (S "selector1._domainkey."); discriminate.
    + apply (S "selector2._domainkey."); discriminate.
    + apply (S "google._domainkey."); discriminate.
    + apply (S "mail._domainkey."); discriminate.
    + apply (S "smtp._domainkey."); discriminate.
  - repeat (constructor; [simpl; intuition discriminate|]). constructor.
Qed.

(** The element expression of the comprehension joins the segments of a
    record and decodes them as one text. *)
Lemma join_characters (t : str) :
  join "" (map (fun c => String c EmptyString) (list_ascii_of_string t)) = t.
Proof.
  induction t as [|c t IH]; [reflexivity|].
  unfold join in *. simpl.
  destruct (map _ (list_ascii_of_string t));
    [simpl in IH; now rewrite <- IH | now rewrite IH].
Qed.

Lemma decode_rdata_segments decode (bs : list bytes) :
  decode_rdata decode (mk_rdata (TupleBytes bs)) = decode (String.concat "" bs).
Proof.
  unfold decode_rdata. simpl. unfold join_bytes.
  destruct (decode _); [now rewrite join_characters | reflexivity].
Qed.

(** ** The overall risk *)

(** C3. [classify_overall] follows the table, first matching rule first:
    neither record exists gives Alto; else either risk Alto gives Alto;
    else either risk Medio gives Medio; else Baixo.  The DKIM lookups play
    no part: two resolvers that agree at the domain and at _dmarc.<domain>
    give the same overall risk and closing message, whatever they answer
    for the DKIM names. *)
Theorem classify_overall_table :
  (forall spf dmarc : assessment,
     (exists_ spf = false -> exists_ dmarc = false ->
        classify_overall spf dmarc = Alto)
     /\ (risk spf = Alto \/ risk dmarc = Alto ->
         classify_overall spf dmarc = Alto)
     /\ (risk spf <> Alto -> risk dmarc <> Alto ->
         exists_ spf = true \/ exists_ dmarc = true ->
         risk spf = Medio \/ risk dmarc = Medio ->
         classify_overall spf dmarc = Medio)
     /\ (risk spf <> Alto -> risk dmarc <> Alto ->
         exists_ spf = true \/ exists_ dmarc = true ->
         risk spf <> Medio -> risk dmarc <> Medio ->
         classify_overall spf dmarc = Baixo))
  /\ (forall decode argv0 arg rv1 rv2,
        let domain := lower (strip arg) in
        rv1 domain = rv2 domain ->
        rv1 ("_dmarc." ++ domain) = rv2 ("_dmarc." ++ domain) ->
        verdict_lines (fst (fst (run (main decode argv0 [arg]) rv1)))
        = verdict_lines (fst (fst (run (main decode argv0 [arg]) rv2)))).
Proof.
  split.
  - intros spf dmarc. unfold classify_overall. repeat split.
    + intros -> ->. reflexivity.
    + intros [H | H]; rewrite H; simpl;
        destruct (negb (exists_ spf) && negb (exists_ dmarc));
        rewrite ?orb_true_r; reflexivity.
    + intros Hs Hd He Hm.
      apply String.eqb_neq in Hs, Hd. rewrite Hs, Hd. simpl.
      assert (negb (exists_ spf) && negb (exists_ dmarc) = false) as ->
        by (destruct He as [-> | ->]; rewrite ?andb_false_r; reflexivity).
      destruct Hm as [-> | ->]; rewrite ?orb_true_r; reflexivity.
    + intros Hs Hd He Hms Hmd.
      apply String.eqb_neq in Hs, Hd, Hms, Hmd. rewrite Hs, Hd, Hms, Hmd. simpl.
      assert (negb (exists_ spf) && negb (exists_ dmarc) = false) as ->
        by (destruct He as [-> | ->]; rewrite ?andb_false_r; reflexivity).
      reflexivity.
  - intros decode argv0 arg rv1 rv2 domain H1 H2.
    rewrite !main_one. fold domain. simpl fst.
    rewrite (records_at_ext decode rv1 rv2 domain H1).
    rewrite (dmarc_result_ext decode rv1 rv2 domain H2).
    reflexivity.
Qed.

Lemma classify_overall_table_witness :
  classify_overall (mk_assessment true (Some "~all") Medio "SPF presente")
    (mk_assessment true (Some "reject") Baixo "DMARC presente") = Medio
  /\ verdict_lines
       (fst (fst (run (main decode_ascii "check" ["example.com"])
                    zone_strict)))
     = verdict_lines
         (fst (fst (run (main decode_ascii "check" ["example.com"])
                      zone_strict_other_keys))).
Proof.
  destruct classify_overall_table as [T D]. split.
  - refine (proj1 (proj2 (proj2
      (T (mk_assessment true (Some "~all") Medio "SPF presente")
         (mk_assessment true (Some "reject") Baixo "DMARC presente"))))
      _ _ _ _).
    + discriminate.
    + discriminate.
    + now left.
    + now left.
  - apply D; reflexivity.
Defined.

(** ** Command line *)

(** C8. With any number of arguments other than one, [main] prints the
    usage line, exits with status 1 and has looked nothing up; with one
    argument it looks up the domain, _dmarc.<domain> and the six DKIM
    names, prints the report - the heading with the domain, the banner,
    the SPF, DMARC and DKIM sections, the overall risk and the closing
    message - and exits with status 0. *)
Theorem main_usage_and_exit (decode : bytes -> outcome str) (argv0 : str)
    (args : list str) (rv : resolver) :
  (List.length args <> 1 ->
     run (main decode argv0 args) rv
     = ((["Uso: " ++ argv0 ++ " dominio.com"], 1), []))
  /\ (forall arg, args = [arg] ->
        let domain := lower (strip arg) in
        let spf := analyze_spf (records_at decode rv domain) in
        let dmarc := dmarc_result decode rv domain in
        let dkim := dkim_result decode rv domain in
        let overall := classify_overall spf dmarc in
        run (main decode argv0 args) rv
        = (([ nl ++ latin1 "[+] Analisando domínio: " ++ domain ++ nl;
              "=== RESULTADO ===" ++ nl;
              "[SPF]";
              "  Existe      : " ++ (if exists_ spf then "True" else "False");
              latin1 "  Política    : "
                ++ match policy spf with Some p => p | None => "None" end;
              "  Risco       : " ++ risk spf;
              latin1 "  Observação  : " ++ note spf ++ nl;
              "[DMARC]";
              "  Existe      : "
                ++ (if exists_ dmarc then "True" else "False");
              latin1 "  Política    : "
                ++ match policy dmarc with Some p => p | None => "None" end;
              "  Risco       : " ++ risk dmarc;
              latin1 "  Observação  : " ++ note dmarc ++ nl;
              "[DKIM]";
              "  Existe      : "
                ++ (if dkim_exists dkim then "True" else "False");
              "  Selectors   : "
                ++ match selectors dkim with
                   | [] => "Nenhum"
                   | _ :: _ => String.concat ", " (selectors dkim)
                   end;
              latin1 "  Observação  : " ++ dkim_note dkim ++ nl;
              latin1 "[CLASSIFICAÇÃO FINAL]";
              "  Risco Geral : " ++ overall ++ nl;
              if overall =? "Baixo"
              then latin1 "[+] Configuração adequada contra spoofing."
              else latin1
                     "[!] Possível cenário de Email Spoofing identificado." ],
            0),
           [ domain;
             "_dmarc." ++ domain;
             "default._domainkey." ++ domain;
             "selector1._domainkey." ++ domain;
             "selector2._domainkey." ++ domain;
             "google._domainkey." ++ domain;
             "mail._domainkey." ++ domain;
             "smtp._domainkey." ++ domain ])).
Proof.
  split.
  - intros H. destruct args as [|a [|b rest]]; simpl in H.
    + reflexivity.
    + lia.
    + reflexivity.
  - intros arg -> domain spf dmarc dkim overall.
    rewrite main_one. fold domain spf dmarc dkim overall.
    unfold report_lines, format_bool, format_opt, join.
    destruct (overall =? Baixo) eqn:E;
      (change (overall =? "Baixo") with (overall =? Baixo); rewrite E);
      reflexivity.
Qed.

Lemma main_usage_and_exit_witness :
  run (main decode_ascii "check.py" []) zone_strict
  = ((["Uso: check.py dominio.com"], 1), [])
  /\ run (main decode_ascii "check.py" ["a.example"; "b.example"]) zone_strict
     = ((["Uso: check.py dominio.com"], 1), [])
  /\ run (main decode_ascii "check.py" [" Example.COM "]) zone_strict
     = (([ nl ++ latin1 "[+] Analisando domínio: example.com" ++ nl;
           "=== RESULTADO ===" ++ nl;
           "[SPF]";
           "  Existe      : True";
           latin1 "  Política    : -all";
           "  Risco       : Baixo";
           latin1 "  Observação  : SPF presente" ++ nl;
           "[DMARC]";
           "  Existe      : True";
           latin1 "  Política    : reject";
           "  Risco       : Baixo";
           latin1 "  Observação  : DMARC presente" ++ nl;
           "[DKIM]";
           "  Existe      : True";
           "  Selectors   : selector1";
           latin1 "  Observação  : DKIM identificado (parcial)" ++ nl;
           latin1 "[CLASSIFICAÇÃO FINAL]";
           "  Risco Geral : Baixo" ++ nl;
           latin1 "[+] Configuração adequada contra spoofing." ], 0),
        ["example.com"; "_dmarc.example.com";
         "default._domainkey.example.com"; "selector1._domainkey.example.com";
         "selector2._domainkey.example.com"; "google._domainkey.example.com";
         "mail._domainkey.example.com"; "smtp._domainkey.example.com"])
  /\ fst (run (main decode_ascii "check.py" ["example.com"]) no_records)
     = ([ nl ++ latin1 "[+] Analisando domínio: example.com" ++ nl;
          "=== RESULTADO ===" ++ nl;
          "[SPF]";
          "  Existe      : False";
          latin1 "  Política    : None";
          "  Risco       : Alto";
          latin1 "  Observação  : SPF ausente" ++ nl;
          "[DMARC]";
          "  Existe      : False";
          latin1 "  Política    : None";
          "  Risco       : Alto";
          latin1 "  Observação  : DMARC ausente" ++ nl;
          "[DKIM]";
          "  Existe      : False";
          "  Selectors   : Nenhum";
          latin1 "  Observação  : DKIM não identificado (selectors comuns)"
            ++ nl;
          latin1 "[CLASSIFICAÇÃO FINAL]";
          "  Risco Geral : Alto" ++ nl;
          latin1 "[!] Possível cenário de Email Spoofing identificado." ], 0).
Proof.
  split; [|split; [|split]].
  - apply (proj1 (main_usage_and_exit decode_ascii "check.py" []
                    zone_strict)).
    simpl. lia.
  - apply (proj1 (main_usage_and_exit decode_ascii "check.py"
                    ["a.example"; "b.example"] zone_strict)).
    simpl. lia.
  - rewrite (proj2 (main_usage_and_exit decode_ascii "check.py"
                      [" Example.COM "] zone_strict) _ eq_refl).
    reflexivity.
  - rewrite (proj2 (main_usage_and_exit decode_ascii "check.py"
                      ["example.com"] no_records) _ eq_refl).
    reflexivity.
Defined.

(** ** Failed lookups *)

Lemma raised_no_match decode rv name :
  lookup_fails decode rv name ->
  no_match is_spf (records_at decode rv name)
  /\ no_match is_dmarc (records_at decode rv name)
  /\ no_match is_dkim (records_at decode rv name).
Proof.
  intros [e H]. unfold records_at, run, query_txt, bind, resolve, ret. simpl.
  rewrite H. unfold no_match.
  destruct e; repeat split; repeat constructor.
Qed.

Lemma analyze_spf_absent l :
  no_match is_spf l -> analyze_spf l = spf_absent.
Proof.
  intros H. unfold analyze_spf.
  change (fun r => startswith (lower r) "v=spf1") with is_spf.
  now rewrite (filter_none _ _ H).
Qed.

Lemma dmarc_result_eq decode rv domain :
  dmarc_result decode rv domain
  = match filter is_dmarc (records_at decode rv ("_dmarc." ++ domain)) with
    | [] => dmarc_absent
    | r0 :: _ =>
        let dmarc := lower r0 in
        let '(policy, risk) :=
          if contains "p=reject" dmarc then ("reject", Baixo)
          else if contains "p=quarantine" dmarc then ("quarantine", Medio)
          else ("none", Alto) in
        mk_assessment true (Some policy) risk "DMARC presente"
    end.
Proof. reflexivity. Qed.

Lemma flat_map_none (h : str -> nat) (l : list str) :
  (forall s, h s = 0) -> flat_map (fun s => repeat s (h s)) l = [].
Proof.
  intros H. induction l as [|x l IH]; simpl.
  - reflexivity.
  - now rewrite H, IH.
Qed.

Lemma dkim_result_absent decode rv domain :
  (forall s, dkim_hits decode rv domain s = 0) ->
  dkim_result decode rv domain = dkim_absent.
Proof.
  intros H. unfold dkim_result, run, detect_dkim, bind.
  rewrite dkim_selectors_eq, (flat_map_none _ _ H). reflexivity.
Qed.

(** C6. When every lookup fails, by timeout or by any other exception of
    the lookup or of the decoding, nothing aborts: the SPF and the DMARC
    assessment are the absent ones with risk Alto, no DKIM selector is
    found, and the run prints the same report with the same exit status
    as a run in which no name exists. *)
Theorem failed_lookups_read_as_absent (decode : bytes -> outcome str)
    (argv0 arg : str) (rv : resolver) :
  (forall name, lookup_fails decode rv name) ->
  let domain := lower (strip arg) in
  analyze_spf (records_at decode rv domain) = spf_absent
  /\ dmarc_result decode rv domain = dmarc_absent
  /\ dkim_result decode rv domain = dkim_absent
  /\ fst (run (main decode argv0 [arg]) rv)
     = (report_lines domain spf_absent dmarc_absent dkim_absent Alto, 0)
  /\ run (main decode argv0 [arg]) rv
     = run (main decode argv0 [arg]) no_records.
Proof.
  intros H domain.
  assert (S : forall r, (forall name, lookup_fails decode r name) ->
            analyze_spf (records_at decode r domain) = spf_absent
            /\ dmarc_result decode r domain = dmarc_absent
            /\ dkim_result decode r domain = dkim_absent).
  { intros r Hr. repeat split.
    - apply analyze_spf_absent, (raised_no_match decode r domain (Hr _)).
    - rewrite dmarc_result_eq, filter_none; [reflexivity|].
      apply (raised_no_match decode r _ (Hr _)).
    - apply dkim_result_absent. intros s. unfold dkim_hits.
      rewrite filter_none; [reflexivity|].
      apply (raised_no_match decode r _ (Hr _)). }
  destruct (S rv H) as (E1 & E2 & E3).
  destruct (S no_records (fun name => ex_intro _ NXDOMAIN eq_refl))
    as (N1 & N2 & N3).
  repeat split; trivial.
  - rewrite main_one. fold domain. simpl fst. now rewrite E1, E2, E3.
  - rewrite !main_one. fold domain.
    now rewrite E1, E2, E3, N1, N2, N3.
Qed.

Lemma failed_lookups_read_as_absent_witness :
  fst (run (main decode_ascii "check.py" ["example.com"]) all_timeout)
  = (report_lines "example.com" spf_absent dmarc_absent dkim_absent Alto, 0)
  /\ run (main decode_ascii "check.py" ["example.com"]) all_timeout
     = run (main decode_ascii "check.py" ["example.com"]) no_records.
Proof.
  destruct (failed_lookups_read_as_absent decode_ascii "check.py"
              "example.com" all_timeout
              (fun name => ex_intro _ Timeout eq_refl))
    as (_ & _ & _ & H1 & H2).
  split; [exact H1 | exact H2].
Defined.

(** ** What the analyzers can produce *)

Lemma analyze_spf_cases l :
  analyze_spf l = spf_absent
  \/ analyze_spf l = mk_assessment true (Some "-all") Baixo "SPF presente"
  \/ analyze_spf l = mk_assessment true (Some "~all") Medio "SPF presente"
  \/ analyze_spf l = mk_assessment true (Some "+all") Alto "SPF presente"
  \/ analyze_spf l = mk_assessment true (Some "sem all") Medio "SPF presente".
Proof.
  unfold analyze_spf. destruct (filter _ l) as [|r0 rest]; [now left|].
  right. cbv zeta.
  destruct (contains "-all" (lower r0)); [now left|]. right.
  destruct (contains "~all" (lower r0)); [now left|]. right.
  destruct (contains "+all" (lower r0) || contains " all" (lower r0));
    [now left | now right].
Qed.

Lemma dmarc_result_cases decode rv domain :
  let d := dmarc_result decode rv domain in
  d = dmarc_absent
  \/ d = mk_assessment true (Some "reject") Baixo "DMARC presente"
  \/ d = mk_assessment true (Some "quarantine") Medio "DMARC presente"
  \/ d = mk_assessment true (Some "none") Alto "DMARC presente".
Proof.
  cbv zeta. rewrite dmarc_result_eq.
  destruct (filter _ _) as [|r0 rest]; [now left|]. right. cbv zeta.
  destruct (contains "p=reject" (lower r0)); [now left|]. right.
  destruct (contains "p=quarantine" (lower r0)); [now left | now right].
Qed.

(** C9. Every assessment that [analyze_spf] or [analyze_dmarc] returns
    has policy None and risk Alto when [exists] is false and a policy
    when [exists] is true; so on such a pair the first rule of
    [classify_overall] adds nothing to the risk rules, and the overall
    risk is the larger of the two risks in the order
    Baixo < Medio < Alto. *)
Theorem producible_assessments (txt_records : list str)
    (decode : bytes -> outcome str) (rv : resolver) (domain : str) :
  let spf := analyze_spf txt_records in
  let dmarc := dmarc_result decode rv domain in
  (forall a, a = spf \/ a = dmarc ->
     (exists_ a = false -> policy a = None /\ risk a = Alto)
     /\ (exists_ a = true -> policy a <> None))
  /\ classify_overall spf dmarc
     = (if (risk spf =? Alto) || (risk dmarc =? Alto) then Alto
        else if (risk spf =? Medio) || (risk dmarc =? Medio) then Medio
        else Baixo)
  /\ classify_overall spf dmarc = risk_max (risk spf) (risk dmarc).
Proof.
  intros spf dmarc.
  assert (Hs := analyze_spf_cases txt_records). fold spf in Hs.
  assert (Hd := dmarc_result_cases decode rv domain).
  cbv zeta in Hd. fold dmarc in Hd.
  split; [|split].
  - intros a [-> | ->].
    + destruct Hs as [-> | [-> | [-> | [-> | ->]]]];
        split; simpl; intros; try discriminate; auto.
    + destruct Hd as [-> | [-> | [-> | ->]]];
        split; simpl; intros; try discriminate; auto.
  - destruct Hs as [-> | [-> | [-> | [-> | ->]]]];
      destruct Hd as [-> | [-> | [-> | ->]]]; reflexivity.
  - destruct Hs as [-> | [-> | [-> | [-> | ->]]]];
      destruct Hd as [-> | [-> | [-> | ->]]]; reflexivity.
Qed.

Lemma producible_assessments_witness :
  classify_overall (analyze_spf ["v=spf1 include:_spf.example.com"])
    (dmarc_result decode_ascii zone_strict "example.com") = Medio
  /\ policy (analyze_spf ["v=spf1 include:_spf.example.com"]) <> None.
Proof.
  destruct (producible_assessments ["v=spf1 include:_spf.example.com"]
              decode_ascii zone_strict "example.com") as (I & _ & M).
  split.
  - rewrite M. reflexivity.
  - apply (I (analyze_spf ["v=spf1 include:_spf.example.com"])).
    + now left.
    + reflexivity.
Defined.

(** ** The substring test *)

Lemma prefix_spec (p s : str) :
  prefix p s = true <-> exists b, s = p ++ b.
Proof.
  revert s. induction p as [|a p IH]; intros [|c s]; simpl.
  - split; [now exists "" | intros _; reflexivity].
  - split; [now exists (String c s) | intros _; reflexivity].
  - split; [discriminate | intros [b H]; discriminate].
  - destruct (ascii_dec a c) as [-> | n].
    + rewrite IH. split; intros [b H]; exists b.
      * now rewrite H.
      * now inversion H.
    + split; [discriminate|]. intros [b H]. inversion H. congruence.
Qed.

Lemma contains_cons (sub : str) (c : ascii) (s : str) :
  contains sub (String c s) = prefix sub (String c s) || contains sub s.
Proof. reflexivity. Qed.

Lemma contains_spec (sub s : str) :
  contains sub s = true <-> exists a b, s = a ++ sub ++ b.
Proof.
  induction s as [|c s IH].
  - change (contains sub "") with (prefix sub "" || false).
    rewrite orb_false_r, prefix_spec. split.
    + intros [b H]. now exists "", b.
    + intros (a & b & H). destruct a; [now exists b | discriminate].
  - rewrite contains_cons, orb_true_iff, prefix_spec, IH. split.
    + intros [[b H] | (a & b & H)].
      * now exists "", b.
      * exists (String c a), b. simpl. now rewrite H.
    + intros (a & b & H). destruct a as [|c' a]; simpl in H.
      * left. now exists b.
      * right. inversion H. now exists a, b.
Qed.

(** C7. The " all" test of [analyze_spf] looks for the four characters
    anywhere in the lowercase record: there is a record starting with
    "v=spf1" whose space-separated tokens contain no [all] mechanism and
    which contains none of "-all", "~all", "+all", but which contains
    " all" as the start of another word, and [analyze_spf] gives it
    policy "+all" with risk Alto. *)
Theorem spf_space_all_is_substring_test :
  exists r : str,
    is_spf r = true
    /\ has_all_mechanism r = false
    /\ (exists a b, lower r = a ++ " all" ++ b)
    /\ contains "-all" (lower r) = false
    /\ contains "~all" (lower r) = false
    /\ contains "+all" (lower r) = false
    /\ analyze_spf [r]
       = mk_assessment true (Some "+all") Alto "SPF presente".
Proof.
  exists "v=spf1 include:_spf.example.com allowlist.example.com".
  repeat split.
  apply contains_spec. reflexivity.
Qed.

(** ** Normalisation of the argument *)

Lemma isspace_lower a : isspace (lower_char a) = isspace a.
Proof. destruct a as [[] [] [] [] [] [] [] []]; reflexivity. Qed.

Lemma lower_char_idem a : lower_char (lower_char a) = lower_char a.
Proof. destruct a as [[] [] [] [] [] [] [] []]; reflexivity. Qed.

Lemma same_letter_lower a b :
  same_letter a b = true -> lower_char a = lower_char b.
Proof.
  unfold same_letter. rewrite !orb_true_iff, !andb_true_iff.
  intros [[H | [_ H]] | [_ H]]; apply Ascii.eqb_eq in H; subst.
  - reflexivity.
  - now rewrite lower_char_idem.
  - now rewrite lower_char_idem.
Qed.

Lemma same_text_lower s t : same_text s t = true -> lower s = lower t.
Proof.
  revert t. induction s as [|a s IH]; intros [|b t]; simpl;
    try discriminate; [reflexivity|].
  rewrite andb_true_iff. intros [Hc Hs].
  now rewrite (same_letter_lower _ _ Hc), (IH _ Hs).
Qed.

Lemma lower_lstrip s : lower (lstrip s) = lstrip (lower s).
Proof.
  induction s as [|a s IH]; simpl; [reflexivity|].
  rewrite isspace_lower. now destruct (isspace a).
Qed.

Lemma lower_rstrip s : lower (rstrip s) = rstrip (lower s).
Proof.
  induction s as [|a s IH]; simpl; [reflexivity|].
  rewrite <- IH, isspace_lower.
  destruct (rstrip s); simpl; [now destruct (isspace a) | reflexivity].
Qed.

Lemma lower_strip s : lower (strip s) = strip (lower s).
Proof. unfold strip. now rewrite lower_rstrip, lower_lstrip. Qed.






(** The text of this file inside text over all code points. *)











(** ** The answer of a lookup *)

Lemma decode_rdata_octets decode r :
  decode_rdata decode r = decode (record_octets r).
Proof.
  unfold decode_rdata, record_octets, join_bytes.
  destruct (strings r); (destruct (decode _);
    [now rewrite join_characters | reflexivity]).
Qed.

Lemma decode_answers_all decode rs texts :
  Forall2 (fun r t => decode (record_octets r) = Returned t) rs texts ->
  decode_answers decode rs = Returned texts.
Proof.
  induction 1 as [|r t rs texts H _ IH]; simpl.
  - reflexivity.
  - now rewrite decode_rdata_octets, H, IH.
Qed.

Lemma decode_answers_first_error decode before r after texts e :
  Forall2 (fun r t => decode (record_octets r) = Returned t) before texts ->
  decode (record_octets r) = Raised e ->
  decode_answers decode (before ++ r :: after)%list = Raised e.
Proof.
  induction 1 as [|r0 t rs ts H _ IH]; intros He; simpl.
  - now rewrite decode_rdata_octets, He.
  - now rewrite decode_rdata_octets, H, IH.
Qed.

(** X1. When the lookup answers and every record decodes, [query_txt]
    returns one text for each record, in the order of the answer, each
    decoded from the record's segments joined without separator. *)
Theorem query_txt_decodes_each_record (decode : bytes -> outcome str)
    (rv : resolver) (name : str) (rs : list rdata) (texts : list str) :
  rv name = Returned rs ->
  Forall2 (fun r t => decode (record_octets r) = Returned t) rs texts ->
  records_at decode rv name = texts
  /\ List.length (records_at decode rv name) = List.length rs.
Proof.
  intros Hrv H.
  assert (E : records_at decode rv name = texts).
  { unfold records_at, run, query_txt, bind, resolve, ret. simpl.
    now rewrite Hrv, (decode_answers_all _ _ _ H). }
  split; [exact E|].
  rewrite E. symmetry. revert H. apply Forall2_length.
Qed.

Lemma query_txt_decodes_each_record_witness :
  records_at decode_ascii split_record "example.com"
  = ["v=spf1 include:_spf.example.com -all"; "hello"].
Proof.
  refine (proj1 (query_txt_decodes_each_record decode_ascii split_record
                   "example.com" _ _ eq_refl _)).
  repeat constructor.
Defined.

(** X2. One record that fails to decode costs the whole answer: the
    result is the single error text of the first such record, whatever
    the other records are, and [analyze_spf] then reports SPF as absent
    even if a valid SPF record was part of the answer. *)
Theorem query_txt_one_bad_record (decode : bytes -> outcome str)
    (rv : resolver) (name : str) (before after : list rdata)
    (r : rdata) (texts : list str) (text : str) :
  rv name = Returned (before ++ r :: after)%list ->
  Forall2 (fun r t => decode (record_octets r) = Returned t) before texts ->
  decode (record_octets r) = Raised (OtherException text) ->
  records_at decode rv name = ["ERROR: " ++ text]
  /\ analyze_spf (records_at decode rv name) = spf_absent.
Proof.
  intros Hrv Hb Hr.
  assert (E : records_at decode rv name = ["ERROR: " ++ text]).
  { unfold records_at, run, query_txt, bind, resolve, ret. simpl.
    now rewrite Hrv, (decode_answers_first_error _ _ _ _ _ _ Hb Hr). }
  split; [exact E|]. rewrite E. reflexivity.
Qed.

Lemma query_txt_one_bad_record_witness :
  analyze_spf (records_at decode_ascii zone_bad_octets "example.com")
  = spf_absent.
Proof.
  refine (proj2 (query_txt_one_bad_record decode_ascii zone_bad_octets
                   "example.com" [mk_rdata (TupleBytes ["v=spf1 -all"])] []
                   (mk_rdata (TupleBytes [bad_octets])) ["v=spf1 -all"]
                   "'utf-8' codec can't decode byte" eq_refl _ eq_refl)).
  repeat constructor.
Defined.

(** X3. The values returned for failures are not reserved: a record
    whose text is TIMEOUT gives what a timeout gives, and a record whose
    text is "ERROR: " followed by some text gives what an exception with
    that text gives. *)
Theorem query_txt_sentinels_collide (decode : bytes -> outcome str)
    (name text : str) (r : rdata) (rv rv_timeout rv_error : resolver) :
  rv name = Returned [r] ->
  rv_timeout name = Raised Timeout ->
  rv_error name = Raised (OtherException text) ->
  (decode (record_octets r) = Returned "TIMEOUT" ->
     records_at decode rv name = records_at decode rv_timeout name)
  /\ (decode (record_octets r) = Returned ("ERROR: " ++ text) ->
      records_at decode rv name = records_at decode rv_error name).
Proof.
  intros Hrv Ht He.
  unfold records_at, run, query_txt, bind, resolve, ret. simpl.
  rewrite Hrv, Ht, He. simpl. rewrite decode_rdata_octets.
  split; intros ->; reflexivity.
Qed.

Lemma query_txt_sentinels_collide_witness :
  records_at decode_ascii record_TIMEOUT "example.com"
  = records_at decode_ascii all_timeout "example.com".
Proof.
  refine (proj1 (query_txt_sentinels_collide decode_ascii "example.com" ""
                   (mk_rdata (TupleBytes ["TIME"; "OUT"]))
                   record_TIMEOUT all_timeout
                   (fun _ => Raised (OtherException ""))
                   eq_refl eq_refl eq_refl) eq_refl).
Defined.

(** ** Letter case and substrings in the analyzers *)

Lemma analyze_spf_head r l :
  is_spf r = true -> analyze_spf (r :: l) = analyze_spf [r].
Proof.
  intros H. unfold analyze_spf. simpl filter.
  change (startswith (lower r) "v=spf1") with (is_spf r). now rewrite H.
Qed.

Lemma analyze_spf_skip r l :
  is_spf r = false -> analyze_spf (r :: l) = analyze_spf l.
Proof.
  intros H. unfold analyze_spf. simpl filter.
  change (startswith (lower r) "v=spf1") with (is_spf r). now rewrite H.
Qed.

Lemma analyze_spf_one_lower r1 r2 :
  lower r1 = lower r2 -> analyze_spf [r1] = analyze_spf [r2].
Proof.
  intros E. unfold analyze_spf. simpl filter. unfold startswith.
  rewrite E. destruct (prefix "v=spf1" (lower r2)); [|reflexivity].
  cbv zeta. now rewrite E.
Qed.

(** X4. [analyze_spf] does not see letter case anywhere in a record, in
    the version tag or after it: two record lists that agree record by
    record up to letter case get the same assessment. *)
Theorem analyze_spf_ignores_case (l1 l2 : list str) :
  Forall2 (fun a b => same_text a b = true) l1 l2 ->
  analyze_spf l1 = analyze_spf l2.
Proof.
  induction 1 as [|a b l1 l2 H _ IH]; [reflexivity|].
  apply same_text_lower in H.
  assert (P : is_spf a = is_spf b) by (unfold is_spf; now rewrite H).
  destruct (is_spf b) eqn:Hb.
  - rewrite (analyze_spf_head a l1 P), (analyze_spf_head b l2 Hb).
    now apply analyze_spf_one_lower.
  - now rewrite (analyze_spf_skip a l1 P), (analyze_spf_skip b l2 Hb).
Qed.

Lemma analyze_spf_ignores_case_witness :
  analyze_spf ["MS=ms123"; "V=SPF1 MX -ALL"]
  = analyze_spf ["ms=ms123"; "v=spf1 mx -all"].
Proof.
  apply analyze_spf_ignores_case. repeat constructor.
Defined.

Lemma append_assoc (a b c : str) : (a ++ b) ++ c = a ++ b ++ c.
Proof. induction a as [|x a IH]; simpl; [reflexivity | now rewrite IH]. Qed.

Lemma contains_trans (a b s : str) :
  contains a b = true -> contains b s = true -> contains a s = true.
Proof.
  rewrite !contains_spec. intros (x & y & ->) (u & v & ->).
  exists (u ++ x), (y ++ v). now rewrite !append_assoc.
Qed.

(** X5. The test for "p=reject" is a substring test too: a DMARC record
    whose subdomain tag reads "sp=reject" is assessed as policy reject
    with risk Baixo whatever its own p= tag says. *)
Theorem analyze_dmarc_subdomain_tag (decode : bytes -> outcome str)
    (rv : resolver) (domain r : str) :
  first_match is_dmarc (records_at decode rv ("_dmarc." ++ domain)) r ->
  contains "sp=reject" (lower r) = true ->
  dmarc_result decode rv domain
  = mk_assessment true (Some "reject") Baixo "DMARC presente".
Proof.
  intros H Hsp. rewrite dmarc_result_eq.
  destruct (filter_first _ _ _ H) as [rest ->]. cbv zeta.
  now rewrite (contains_trans "p=reject" "sp=reject" (lower r) eq_refl Hsp).
Qed.

Lemma analyze_dmarc_subdomain_tag_witness :
  dmarc_result decode_ascii zone_sp_reject "example.com"
  = mk_assessment true (Some "reject") Baixo "DMARC presente".
Proof.
  apply (analyze_dmarc_subdomain_tag decode_ascii zone_sp_reject
           "example.com" "v=DMARC1; p=none; sp=reject").
  - exists [], []. repeat split. constructor.
  - reflexivity.
Defined.

(** ** The DKIM result as a set *)

Lemma in_repeat (s x : str) (n : nat) :
  In x (repeat s n) <-> x = s /\ 0 < n.
Proof.
  induction n as [|n IH]; simpl.
  - split; [contradiction | intros [_ H]; lia].
  - rewrite IH. split.
    + intros [<- | [-> _]]; split; auto; lia.
    + intros [-> _]. now left.
Qed.

Lemma dkim_result_eq decode rv domain :
  dkim_result decode rv domain
  = match flat_map (fun s => repeat s (dkim_hits decode rv domain s))
            COMMON_DKIM_SELECTORS with
    | [] => dkim_absent
    | found => mk_dkim true found DKIM_identificado
    end.
Proof.
  unfold dkim_result, run, detect_dkim, bind.
  rewrite dkim_selectors_eq, app_nil_l. unfold ret, fst.
  now destruct (flat_map _ _).
Qed.

(** X6. As a set, the selectors [detect_dkim] reports are exactly the
    probed selectors at which some returned record starts with v=dkim1;
    [exists] is true exactly when there is such a selector, and it is
    false exactly when the reported list is empty. *)
Theorem detect_dkim_membership (decode : bytes -> outcome str)
    (rv : resolver) (domain : str) :
  let result := dkim_result decode rv domain in
  (forall s, In s (selectors result)
             <-> In s COMMON_DKIM_SELECTORS
                 /\ 0 < dkim_hits decode rv domain s)
  /\ (dkim_exists result = true
      <-> exists s, In s COMMON_DKIM_SELECTORS
                    /\ 0 < dkim_hits decode rv domain s)
  /\ (dkim_exists result = false <-> selectors result = []).
Proof.
  intros result.
  assert (M : forall s, In s (selectors result)
                        <-> In s COMMON_DKIM_SELECTORS
                            /\ 0 < dkim_hits decode rv domain s).
  { intros s. subst result. rewrite dkim_result_eq.
    transitivity
      (In s (flat_map (fun s => repeat s (dkim_hits decode rv domain s))
               COMMON_DKIM_SELECTORS)).
    - now destruct (flat_map _ _).
    - rewrite in_flat_map. split.
      + intros (x & Hx & Hs). apply in_repeat in Hs as [-> Hn]. auto.
      + intros [Hs Hn]. exists s. split; [exact Hs|]. now apply in_repeat. }
  assert (E : dkim_exists result = false <-> selectors result = []).
  { subst result. rewrite dkim_result_eq.
    destruct (flat_map _ _); simpl; split; intros; congruence. }
  split; [exact M|]. split; [|exact E].
  split.
  - intros H.
    assert (N : selectors result <> [])
      by (intros Hn; apply E in Hn; congruence).
    destruct (selectors result) as [|s rest]; [congruence|].
    exists s. apply M. now left.
  - intros (s & Hs). apply M in Hs.
    apply not_false_is_true. intros Hx.
    apply E in Hx. rewrite Hx in Hs. contradiction.
Qed.

(** ** The closing message *)

Lemma last_report_line d s m k o :
  last (report_lines d s m k o) ""
  = if negb (o =? Baixo) then msg_warning else msg_adequate.
Proof. reflexivity. Qed.

(** X7. The report ends with the message that the configuration is
    adequate exactly when the SPF policy found is "-all" and the DMARC
    policy found is "reject"; in every other case it ends with the
    spoofing warning. *)
Theorem closing_message (decode : bytes -> outcome str) (argv0 arg : str)
    (rv : resolver) :
  let domain := lower (strip arg) in
  let spf := analyze_spf (records_at decode rv domain) in
  let dmarc := dmarc_result decode rv domain in
  let out := fst (fst (run (main decode argv0 [arg]) rv)) in
  (last out "" = msg_adequate
   <-> policy spf = Some "-all" /\ policy dmarc = Some "reject")
  /\ (last out "" = msg_warning
      <-> ~ (policy spf = Some "-all" /\ policy dmarc = Some "reject")).
Proof.
  intros domain spf dmarc out. subst out.
  rewrite main_one. fold domain spf dmarc. simpl fst.
  rewrite last_report_line.
  assert (Hs := analyze_spf_cases (records_at decode rv domain)).
  fold spf in Hs.
  assert (Hd := dmarc_result_cases decode rv domain).
  cbv zeta in Hd. fold dmarc in Hd.
  destruct Hs as [-> | [-> | [-> | [-> | ->]]]];
    destruct Hd as [-> | [-> | [-> | ->]]];
    simpl; (split; split;
            [ try discriminate; try (intros _; split; reflexivity)
            | try (intros [? ?]; discriminate); try reflexivity
            | try discriminate;
              try (intros _ [? ?]; discriminate)
            | try reflexivity;
              try (intros H; exfalso; apply H; split; reflexivity) ]).
Qed.

(** X8. When the domain has no SPF record, or _dmarc.<domain> has no
    DMARC record, or a lookup for either fails, the overall risk is Alto
    and the report ends with the spoofing warning, whatever the other
    record says. *)
Theorem missing_record_is_high (decode : bytes -> outcome str)
    (argv0 arg : str) (rv : resolver) :
  let domain := lower (strip arg) in
  let spf := analyze_spf (records_at decode rv domain) in
  let dmarc := dmarc_result decode rv domain in
  no_match is_spf (records_at decode rv domain)
  \/ no_match is_dmarc (records_at decode rv ("_dmarc." ++ domain))
  \/ lookup_fails decode rv domain
  \/ lookup_fails decode rv ("_dmarc." ++ domain) ->
  classify_overall spf dmarc = Alto
  /\ last (fst (fst (run (main decode argv0 [arg]) rv))) "" = msg_warning.
Proof.
  intros domain spf dmarc H.
  assert (A : spf = spf_absent \/ dmarc = dmarc_absent).
  { destruct H as [H | [H | [H | H]]].
    - left. now apply analyze_spf_absent.
    - right. subst dmarc. rewrite dmarc_result_eq. now rewrite filter_none.
    - left. apply analyze_spf_absent, (raised_no_match decode rv _ H).
    - right. subst dmarc. rewrite dmarc_result_eq, filter_none;
        [reflexivity|]. apply (raised_no_match decode rv _ H). }
  assert (Hs := analyze_spf_cases (records_at decode rv domain)).
  fold spf in Hs.
  assert (Hd := dmarc_result_cases decode rv domain).
  cbv zeta in Hd. fold dmarc in Hd.
  assert (C : classify_overall spf dmarc = Alto).
  { destruct A as [-> | ->].
    - destruct Hd as [-> | [-> | [-> | ->]]]; reflexivity.
    - destruct Hs as [-> | [-> | [-> | [-> | ->]]]]; reflexivity. }
  split; [exact C|].
  rewrite main_one. fold domain spf dmarc. simpl fst.
  rewrite last_report_line, C. reflexivity.
Qed.

Lemma missing_record_is_high_witness :
  last (fst (fst (run (main decode_ascii "check.py" ["example.com"])
                    zone_bad_octets))) ""
  = msg_warning.
Proof.
  apply (missing_record_is_high decode_ascii "check.py" "example.com"
           zone_bad_octets).
  right. left. constructor.
Defined.

(** ** The normalised domain *)

Lemma lower_idem s : lower (lower s) = lower s.
Proof.
  induction s as [|a s IH]; simpl; [reflexivity|].
  now rewrite lower_char_idem, IH.
Qed.

Lemma rstrip_idem s : rstrip (rstrip s) = rstrip s.
Proof.
  induction s as [|a s IH]; simpl; [reflexivity|].
  destruct (rstrip s) as [|b t] eqn:E.
  - destruct (isspace a) eqn:Ha; simpl; [reflexivity | now rewrite Ha].
  - change (rstrip (String a (String b t))) with
      (match rstrip (String b t) with
       | EmptyString => if isspace a then EmptyString else String a EmptyString
       | u => String a u
       end).
    now rewrite IH.
Qed.

Lemma lstrip_head s :
  lstrip s = "" \/ exists c t, lstrip s = String c t /\ isspace c = false.
Proof.
  induction s as [|a s IH]; simpl; [now left|].
  destruct (isspace a) eqn:Ha; [exact IH|].
  right. now exists a, s.
Qed.

Lemma rstrip_head c t :
  isspace c = false -> exists u, rstrip (String c t) = String c u.
Proof.
  intros H. simpl. destruct (rstrip t).
  - rewrite H. now exists "".
  - eexists. reflexivity.
Qed.

Lemma strip_idem s : strip (strip s) = strip s.
Proof.
  unfold strip.
  assert (L : lstrip (rstrip (lstrip s)) = rstrip (lstrip s)).
  { destruct (lstrip_head s) as [-> | (c & t & -> & Hc)]; [reflexivity|].
    destruct (rstrip_head c t Hc) as [u ->]. simpl. now rewrite Hc. }
  now rewrite L, rstrip_idem.
Qed.

(** X9. The domain that [main] works with is already in normal form:
    lowercasing or stripping it again changes nothing, it is the first
    name looked up, and a run on it as the argument is the same run. *)
Theorem normalized_domain_is_stable (decode : bytes -> outcome str)
    (argv0 arg : str) (rv : resolver) :
  let domain := lower (strip arg) in
  lower domain = domain
  /\ strip domain = domain
  /\ hd "" (snd (run (main decode argv0 [arg]) rv)) = domain
  /\ run (main decode argv0 [domain]) rv = run (main decode argv0 [arg]) rv.
Proof.
  intros domain.
  assert (L : lower domain = domain) by apply lower_idem.
  assert (S : strip domain = domain).
  { subst domain. now rewrite <- lower_strip, strip_idem. }
  split; [exact L|]. split; [exact S|]. split.
  - rewrite main_one. reflexivity.
  - rewrite !main_one. cbv zeta. fold domain. now rewrite S, L.
Qed.
